(** * proxy_mock: the HTTP handlers of [proxy_mock/any_catcher.py]

    A shallow embedding of the Flask view functions of the mock server and
    the properties its specification states about them.

    Python objects live in a heap of dicts and lists addressed by location,
    so that two names for one dict stay two names for one dict.  The view
    functions are computations in a state-and-exception monad over the
    application state.  What [any_catcher.py] imports from the rest of the
    package ([proxy_mock.mock_service], [proxy_mock.models]) and from the
    Python platform is an interface the handlers are parametric in.

    Where the model stops.  The decorators [log_request] and
    [get_request_data] are taken to pass the call through, the second one
    handing in the dict of the request; the calls of [app.logger] only write
    to the log and are left out.  A handler that ends in
    [return jsonify(payload), status] is followed up to that call: the model
    keeps the payload and the status, the encoding is Flask's (it takes what
    JSON can carry, so no raw bytes).  [time.sleep(float(t))] is recorded as
    an event with its argument. *)

From Stdlib Require Import ZArith String Ascii Strings.Byte SpecFloat.
From stdpp Require Import base option list gmap strings fin_maps fin_sets pretty.

Local Open Scope string_scope.
Local Open Scope list_scope.
Local Open Scope Z_scope.

(** ** Python values *)

Definition loc := positive.

(** Immutable values are carried by value, dicts and lists by reference. *)
Inductive val :=
  | VNone
  | VBool (b : bool)
  | VInt (z : Z)
  | VFloat (f : spec_float)
  | VStr (s : string)
  | VBytes (b : list byte)
  | VRef (l : loc).

Arguments VRef l%_positive.

Inductive obj :=
  | ODict (d : gmap string val)
  | OList (xs : list val).

Abbreviation heap := (gmap loc obj).

Inductive exn :=
  | KeyError (k : string)
  | TypeError
  | AttributeError
  | ValidationError (errors : val)
  | OtherError (name : string).

Inductive result (A : Type) :=
  | Ok (a : A)
  | Raise (e : exn).
Arguments Ok {A} a.
Arguments Raise {A} e.

(** [bool(v)]: the test an [if v:] performs. *)
Definition truthy (h : heap) (v : val) : bool :=
  match v with
  | VNone => false
  | VBool b => b
  | VInt z => negb (z =? 0)
  | VFloat (S754_zero _) => false
  | VFloat _ => true
  | VStr s => negb (String.eqb s "")
  | VBytes b => negb (Nat.eqb (length b) 0)
  | VRef l =>
      match h !! l with
      | Some (ODict d) => negb (Nat.eqb (size d) 0)
      | Some (OList xs) => negb (Nat.eqb (length xs) 0)
      | None => true
      end
  end.

(** [v > 0] on the numbers. *)
Definition gt_zero (v : val) : bool :=
  match v with
  | VBool b => b
  | VInt z => 0 <? z
  | VFloat f => SFltb (S754_zero false) f
  | _ => false
  end.


Definition is_none (v : val) : bool :=
  match v with VNone => true | _ => false end.

Definition is_bytes (v : val) : bool :=
  match v with VBytes _ => true | _ => false end.

(** ** [str] of bytes: [repr(b)], as CPython's [PyBytes_Repr] writes it *)

Definition dquote : ascii := ascii_of_nat 34.
Definition squote : ascii := ascii_of_nat 39.
Definition backslash : ascii := ascii_of_nat 92.

Definition hexdigit (n : nat) : ascii :=
  nth n (list_ascii_of_string "0123456789abcdef") "0"%char.

Definition repr_byte (quote : ascii) (c : byte) : string :=
  let a := ascii_of_byte c in
  let n := nat_of_ascii a in
  if (Ascii.eqb a quote || Ascii.eqb a backslash)%bool
  then String backslash (String a "")
  else if Nat.eqb n 9 then String backslash "t"
  else if Nat.eqb n 10 then String backslash "n"
  else if Nat.eqb n 13 then String backslash "r"
  else if (Nat.ltb n 32 || Nat.leb 127 n)%bool
  then String backslash
         (String "x" (String (hexdigit (Nat.div n 16)) (String (hexdigit (Nat.modulo n 16)) "")))
  else String a "".

Definition has_char (a : ascii) (bs : list byte) : bool :=
  existsb (fun c => Ascii.eqb (ascii_of_byte c) a) bs.

Definition bytes_repr (bs : list byte) : string :=
  let quote :=
    if (has_char squote bs && negb (has_char dquote bs))%bool then dquote else squote in
  String "b" (String quote
    (String.concat "" (map (repr_byte quote) bs) +:+ String quote "")).

(** ** Dict and list primitives on the heap *)

Definition new_object (o : obj) (h : heap) : loc * heap :=
  let l := fresh (dom h) in (l, <[l := o]> h).

(** [d[k]] *)
Definition heap_getitem (h : heap) (d : val) (k : string) : result val :=
  match d with
  | VRef l =>
      match h !! l with
      | Some (ODict m) =>
          match m !! k with
          | Some v => Ok v
          | None => Raise (KeyError k)
          end
      | _ => Raise TypeError
      end
  | _ => Raise TypeError
  end.

(** [d[k] = v] *)
Definition heap_setitem (h : heap) (d : val) (k : string) (v : val) : result heap :=
  match d with
  | VRef l =>
      match h !! l with
      | Some (ODict m) => Ok (<[l := ODict (<[k := v]> m)]> h)
      | _ => Raise TypeError
      end
  | _ => Raise TypeError
  end.

(** [d.get(k)]: [None] for a missing key; only a dict has the method.  The
    dicts of the model are keyed by strings, so a key that is not a string
    is never found; a dict or a list as key is not hashable. *)
Definition heap_dict_get (h : heap) (d : val) (k : val) : result val :=
  match d with
  | VRef l =>
      match h !! l with
      | Some (ODict m) =>
          match k with
          | VStr s => Ok (default VNone (m !! s))
          | VRef _ => Raise TypeError
          | _ => Ok VNone
          end
      | _ => Raise AttributeError
      end
  | _ => Raise AttributeError
  end.

(** [str(v)].  The text of a float and of a container is the platform's
    ([str_other]); the other cases are written out. *)
Definition py_str (str_other : heap → val → string) (h : heap) (v : val) : string :=
  match v with
  | VNone => "None"
  | VBool true => "True"
  | VBool false => "False"
  | VInt z => pretty z
  | VStr s => s
  | VBytes b => bytes_repr b
  | _ => str_other h v
  end.

(** ** [copy.deepcopy]

    The copy of a value is a fresh, isomorphic image of the part of the heap
    it reaches: every reachable dict and list is duplicated at a new
    location, references between them are redirected to the duplicates
    (sharing and cycles are kept, as the memo of [deepcopy] does), and the
    immutable values are shared. *)

Definition val_refs (v : val) : gset loc :=
  match v with VRef l => {[ l ]} | _ => ∅ end.

Definition obj_refs (o : obj) : gset loc :=
  match o with
  | ODict d => ⋃ (val_refs <$> (map_to_list d).*2)
  | OList xs => ⋃ (val_refs <$> xs)
  end.

Definition successors (h : heap) (s : gset loc) : gset loc :=
  ⋃ ((λ l, from_option obj_refs ∅ (h !! l)) <$> elements s).

(** [n] rounds of adding the objects referenced from [s]. *)
Fixpoint reach (h : heap) (n : nat) (s : gset loc) : gset loc :=
  match n with
  | O => s
  | S n => reach h n (s ∪ (successors h s ∩ dom h))
  end.

Definition reachable (h : heap) (v : val) : gset loc :=
  reach h (size (dom h)) (val_refs v ∩ dom h).

(** A set of locations that holds whatever its objects refer to. *)
Definition closed (h : heap) (s : gset loc) : Prop :=
  successors h s ∩ dom h ⊆ s.

Definition rename_val (ρ : gmap loc loc) (v : val) : val :=
  match v with
  | VRef l => VRef (default l (ρ !! l))
  | _ => v
  end.

Definition rename_obj (ρ : gmap loc loc) (o : obj) : obj :=
  match o with
  | ODict d => ODict (rename_val ρ <$> d)
  | OList xs => OList (rename_val ρ <$> xs)
  end.

Definition copy_plan (h : heap) (v : val) : list (loc * loc) :=
  let ls := elements (reachable h v) in
  zip ls (fresh_list (length ls) (dom h)).

Definition copy_of (h : heap) (ρ : gmap loc loc) (p : loc * loc) : loc * obj :=
  (p.2, rename_obj ρ (default (ODict ∅) (h !! p.1))).

Definition deepcopy (h : heap) (v : val) : val * heap :=
  let plan := copy_plan h v in
  let ρ : gmap loc loc := list_to_map plan in
  (rename_val ρ v, list_to_map (copy_of h ρ <$> plan) ∪ h).

(** ** The request, the responses and the application state *)

(** [flask.request], as far as the handlers read it. *)
Record request := Request {
  req_path : string;                    (* request.path *)
  req_args : list (string * string);    (* request.args, in arrival order *)
  req_data : list byte                  (* request.data *)
}.

(** [dict(request.args).get(k)]: the first value sent for the key. *)
Fixpoint args_get (k : string) (args : list (string * string)) : option string :=
  match args with
  | [] => None
  | (k', v) :: rest => if String.eqb k' k then Some v else args_get k rest
  end.

(** What [proxy_request_to_host] hands back: a [requests.Response]. *)
Record proxy_response := ProxyResponse {
  content : list byte;
  status_code : Z;
  headers : gmap string string
}.

(** What a view function returns to Flask. *)
Inductive view :=
  | Jsonify (payload : gmap string val) (status : Z)
      (* return jsonify(payload), status *)
  | FlaskResponse (response status hdrs : val) (content_type : option string)
      (* return Response(response, status, headers[, content_type=...]) *)
  | Plain (body status hdrs : val).
      (* return body, status, headers *)

(** The calls that leave the process, in the order they are made. *)
Inductive event :=
  | ESleep (seconds : val)                 (* time.sleep(float(seconds)) *)
  | EProxy (req : request) (host : val).   (* proxy_request_to_host(request, host) *)

(** The state the handlers share: the object heap (the mock storage of
    [mock_service] lives in it), the list [app.params_storage], and the
    calls made so far. *)
Record app := App {
  app_heap : heap;
  params_storage : list val;
  app_trace : list event
}.

Definition set_heap (h : heap) (a : app) : app :=
  App h (params_storage a) (app_trace a).

(** ** The monad of the handlers: state and exceptions *)

Definition M (A : Type) : Type := app → result A * app.

Definition ret {A} (x : A) : M A := λ a, (Ok x, a).

Definition bind {A B} (m : M A) (k : A → M B) : M B :=
  λ a, match m a with
       | (Ok x, a') => k x a'
       | (Raise e, a') => (Raise e, a')
       end.

Declare Scope py_scope.
Delimit Scope py_scope with py.
Notation "x <- m ;; k" := (bind m (λ x, k))
  (at level 100, m at next level, right associativity) : py_scope.
Notation "m ;;; k" := (bind m (λ _, k))
  (at level 100, right associativity) : py_scope.
Local Open Scope py_scope.

(** [try: m  except ValidationError as err: handler(err)] *)
Definition except_ValidationError {A} (m : M A) (handler : val → M A) : M A :=
  λ a, match m a with
       | (Raise (ValidationError errors), a') => handler errors a'
       | r => r
       end.

Definition of_result {A} (r : result A) : M A := λ a, (r, a).

(** A call that reads the heap. *)
Definition reads {A} (f : heap → A) : M A := λ a, (Ok (f (app_heap a)), a).

(** A call that may allocate or mutate objects but cannot fail. *)
Definition updates {A} (f : heap → A * heap) : M A :=
  λ a, let '(x, h) := f (app_heap a) in (Ok x, set_heap h a).

(** A call that may allocate or mutate objects, or raise. *)
Definition tries {A} (f : heap → result A * heap) : M A :=
  λ a, let '(r, h) := f (app_heap a) in (r, set_heap h a).

Definition getitem (d : val) (k : string) : M val :=
  λ a, (heap_getitem (app_heap a) d k, a).

Definition setitem (d : val) (k : string) (v : val) : M unit :=
  λ a, match heap_setitem (app_heap a) d k v with
       | Ok h => (Ok tt, set_heap h a)
       | Raise e => (Raise e, a)
       end.

Definition dict_get (d : val) (k : val) : M val :=
  λ a, (heap_dict_get (app_heap a) d k, a).

Definition new_dict (d : gmap string val) : M val :=
  updates (λ h, let '(l, h') := new_object (ODict d) h in (VRef l, h')).

(** [app.params_storage.append(v)] *)
Definition params_append (v : val) : M unit :=
  λ a, (Ok tt, App (app_heap a) (params_storage a ++ [v]) (app_trace a)).

Definition emit (e : event) : M unit :=
  λ a, (Ok tt, App (app_heap a) (params_storage a) (app_trace a ++ [e])).

Definition bool_of (v : val) : M bool := reads (λ h, truthy h v).

(** ** Reading a response back *)

(** A key of the dict a value refers to; [None] when there is no such dict
    or no such key. *)
Definition field (h : heap) (d : val) (k : string) : option val :=
  match d with
  | VRef l =>
      match h !! l with
      | Some (ODict m) => m !! k
      | _ => None
      end
  | _ => None
  end.


(** ** The view functions of [any_catcher.py] *)

Section Handlers.

(** What the module imports from [proxy_mock.mock_service].  The mock
    storage is an object of that module: the functions reach it through
    the heap. *)
Variable create_response : gmap string val → heap → val * heap.
Variable find_response : heap → string → val.
Variable path_finder : heap → string → val.
Variable return_storage : heap → val * heap.
Variable delete_mock : string → heap → val * heap.
Variable cleanup_storage : heap → val * heap.
Variable proxy_request_to_host : request → val → result proxy_response.

(** What it takes from the platform: [pickle.loads], [request.json],
    [ConfigureMockRequestSchema.model_validate(x).model_dump()] (a failed
    validation raises [ValidationError], carrying what
    [json.loads(err.json())] reads from it), and [str] of floats and
    containers. *)
Variable pickle_loads : list byte → heap → result val * heap.
Variable get_json : request → heap → result val * heap.
Variable model_validate : val → heap → result (gmap string val) * heap.
Variable str_other : heap → val → string.

(** The [try] block of the two configuration handlers. *)
Definition try_validation (m : M (gmap string val)) : M (val + gmap string val) :=
  except_ValidationError (x <- m;; ret (inr x)) (λ errors, ret (inl errors)).

Definition kwarg (validate_data : gmap string val) (k : string) : M val :=
  of_result (from_option Ok (Raise (KeyError k)) (validate_data !! k)).

(** [POST /configure_mock] *)
Definition configure_mock (req : request) : M view :=
  r <- try_validation (input <- tries (get_json req);; tries (model_validate input));;
  match r with
  | inl errors =>
      ret (Jsonify {[ "success" := VBool false; "error" := errors ]} 400)
  | inr validate_data =>
      mock_data <- updates (create_response validate_data);;
      path <- kwarg validate_data "path";;
      ret (Jsonify {[ "success" := VBool true; "path" := path; "data" := mock_data ]} 201)
  end.

(** [POST /configure_mock/binary] *)
Definition configure_binary_mock (req : request) : M view :=
  input_data <- tries (pickle_loads (req_data req));;
  r <- try_validation (tries (model_validate input_data));;
  match r with
  | inl errors =>
      ret (Jsonify {[ "success" := VBool false; "error" := errors ]} 400)
  | inr validate_data =>
      created <- updates (create_response validate_data);;
      mock_data <- updates (λ h, deepcopy h created);;
      inner <- getitem mock_data "mock_data";;
      body <- getitem inner "body";;
      text <- reads (λ h, py_str str_other h body);;
      inner <- getitem mock_data "mock_data";;
      setitem inner "body" (VStr text);;;
      path <- kwarg validate_data "path";;
      ret (Jsonify {[ "success" := VBool true; "path" := path; "data" := mock_data ]} 201)
  end.

(** [mock_data["mock_data"][k]] *)
Definition mock_field (mock_data : val) (k : string) : M val :=
  inner <- getitem mock_data "mock_data";;
  getitem inner k.

(** The reply a mock without upstream renders itself: its body as it is
    stored, with its status code and headers. *)
Definition render_mock (mock_data : val) : M view :=
  body <- mock_field mock_data "body";;
  if is_none body then
    status <- mock_field mock_data "status_code";;
    hdrs <- mock_field mock_data "headers";;
    ret (FlaskResponse body status hdrs None)
  else if is_bytes body then
    status <- mock_field mock_data "status_code";;
    hdrs <- mock_field mock_data "headers";;
    ret (FlaskResponse body status hdrs (Some "application/octet-stream"))
  else
    status <- mock_field mock_data "status_code";;
    hdrs <- mock_field mock_data "headers";;
    ret (Plain body status hdrs).

(** The catch-all route [/<path:path>]; [request_data] is the dict the
    [get_request_data] decorator passes in. *)
Definition catch_all (req : request) (request_data : val) : M view :=
  mock_data <- reads (λ h, find_response h (req_path req));;
  if is_none mock_data then
    params_append request_data;;;
    ret (Jsonify {[ "error" := VStr ("Не найден мок " +:+ req_path req) ]} 404)
  else
    extra_info <- getitem mock_data "extra_info";;
    setitem request_data "extra_info" extra_info;;;
    params_append request_data;;;
    proxy_host <- getitem mock_data "proxy_host";;
    proxied <- bool_of proxy_host;;
    if proxied then
      emit (EProxy req proxy_host);;;
      proxy_response <- of_result (proxy_request_to_host req proxy_host);;
      hdrs <- new_dict (VStr <$> headers proxy_response);;
      ret (FlaskResponse (VBytes (content proxy_response))
             (VInt (status_code proxy_response)) hdrs None)
    else
      timeout <- getitem mock_data "timeout";;
      delayed <- bool_of timeout;;
      (if delayed then emit (ESleep timeout) else ret tt);;;
      render_mock mock_data.

(** [if path:] on what [query_params.get("path")] gave: a missing
    parameter is [None], an empty one is the empty string, both false. *)
Definition given (path : option string) : option string :=
  match path with
  | Some p => if String.eqb p "" then None else Some p
  | None => None
  end.

(** [POST /cleanup_storage] *)
Definition clear_storage (req : request) : M view :=
  let query_params := req_args req in
  let path := args_get "path" query_params in
  result <- match given path with
            | Some p => updates (delete_mock p)
            | None => updates cleanup_storage
            end;;
  data <- updates return_storage;;
  ret (Jsonify {[ "success" := result; "data" := data ]} 200).

(** [GET /storage] *)
Definition get_storage (req : request) : M view :=
  let query_params := req_args req in
  data <- updates return_storage;;
  data <- match given (args_get "path" query_params) with
          | Some path =>
              path <- reads (λ h, path_finder h path);;
              found <- bool_of path;;
              if found then dict_get data path else ret VNone
          | None => ret data
          end;;
  ret (Jsonify {[ "success" := VBool true; "data" := data ]} 200).

End Handlers.

(** ** The replies, by name *)

(** The miss of the catch-all route. *)
Definition not_found (req : request) : view :=
  Jsonify {[ "error" := VStr ("Не найден мок " +:+ req_path req) ]} 404.

(** The rejection of a mock definition that fails the schema. *)
Definition invalid (errors : val) : view :=
  Jsonify {[ "success" := VBool false; "error" := errors ]} 400.

(** The acknowledgement of a registered mock. *)
Definition created (path data : val) : view :=
  Jsonify {[ "success" := VBool true; "path" := path; "data" := data ]} 201.

(** The answer of [GET /storage]. *)
Definition storage_reply (data : val) : view :=
  Jsonify {[ "success" := VBool true; "data" := data ]} 200.


(** The state once the catch-all route has recorded a matched request: the
    request dict has received the mock's [extra_info] and has been appended
    to [app.params_storage]. *)
Definition recorded (a : app) (lr : loc) (d : gmap string val) (ei : val) : app :=
  App (<[lr := ODict (<["extra_info" := ei]> d)]> (app_heap a))
      (params_storage a ++ [VRef lr]) (app_trace a).

(** ** The mock storage of [proxy_mock.mock_service] *)

Module MockService.

(** Modelled from the spec: the storage of [proxy_mock.mock_service],
    which is not part of [any_catcher.py].  One shared dict holds every
    registered mock under its normalized path, at most one per path (§3
    "at most one MockEntry exists per normalized path", §5
    "single-shared-dict semantics"); dispatch is a direct key lookup (§4.2).
    The hierarchy the spec speaks of is the order of the paths: [/a] lies
    above [/a/b].  The dict is also what the handlers expect: they index
    what [return_storage] gives with the key [path_finder] found. *)
Definition STORAGE : loc := 1%positive.

Definition storage_dict (h : heap) : gmap string val :=
  match h !! STORAGE with
  | Some (ODict d) => d
  | _ => ∅
  end.

Definition slash : ascii := ascii_of_nat 47.

Definition rstrip_slash (s : list ascii) : list ascii :=
  foldr (λ c acc, match acc with
                  | [] => if Ascii.eqb c slash then [] else [c]
                  | _ => c :: acc
                  end) [] s.

(** Modelled from the spec: the normalization [Register] applies (§4.1:
    "strips trailing slash, ensures leading slash"). *)
Definition normalize (p : string) : string :=
  match rstrip_slash (list_ascii_of_string p) with
  | c :: rest =>
      if Ascii.eqb c slash then string_of_list_ascii (c :: rest)
      else String slash (string_of_list_ascii (c :: rest))
  | [] => String slash ""
  end.

Definition path_of (kwargs : gmap string val) : string :=
  match kwargs !! "path" with
  | Some (VStr p) => normalize p
  | _ => String slash ""
  end.

(** Modelled from the spec: [Register] (§4.1) inserts or replaces the
    entry at the normalized path and returns the stored representation:
    the dict that now sits in the storage, not a copy of it. *)
Definition create_response (kwargs : gmap string val) (h : heap) : val * heap :=
  let p := path_of kwargs in
  let '(l, h1) := new_object (ODict (<["path" := VStr p]> kwargs)) h in
  (VRef l, <[STORAGE := ODict (<[p := VRef l]> (storage_dict h1))]> h1).

(** Modelled from the spec: the Matcher in dispatch mode (§4.2): the
    entry registered exactly at the path, or no mock. *)
Definition find_response (h : heap) (p : string) : val :=
  default VNone (storage_dict h !! p).

(** Modelled from the spec: the Matcher as [get_storage] uses it (§4.2).
    The handler looks the result up with [data.get(path)], so the result is
    a key of the storage: the path itself when a mock is registered there,
    [None] when nothing is.  A path that only lies above registered ones
    has no key of its own in this storage. *)
Definition path_finder (h : heap) (p : string) : val :=
  match storage_dict h !! p with
  | Some _ => VStr p
  | None => VNone
  end.

(** Modelled from the spec: [Snapshot] (§4.1) "returns the full tree":
    the storage itself. *)
Definition return_storage (h : heap) : val * heap := (VRef STORAGE, h).

(** Modelled from the spec: [Delete] (§4.1) removes the entry at the path
    if there is one and tells whether it did. *)
Definition delete_mock (p : string) (h : heap) : val * heap :=
  match storage_dict h !! p with
  | Some _ => (VBool true, <[STORAGE := ODict (delete p (storage_dict h))]> h)
  | None => (VBool false, h)
  end.

(** Modelled from the spec: [Clear] (§4.1) empties the storage and always
    succeeds. *)
Definition cleanup_storage (h : heap) : val * heap :=
  (VBool true, <[STORAGE := ODict ∅]> h).

(** The heap of a server that has no mock yet. *)
Definition empty_heap : heap := {[ STORAGE := ODict ∅ ]}.

End MockService.

(** ** Sample surroundings for the examples *)

Module Sample.

(** An upstream that answers every call the same way. *)
Definition upstream : proxy_response :=
  ProxyResponse [x6f; x6b] 203 {[ "X-Upstream" := "yes" ]}.

Definition proxy_request_to_host (_ : request) (_ : val) : result proxy_response :=
  Ok upstream.

(** A stand-in for [pickle.loads]: an empty payload is an error ("Ran out
    of input"); any other payload is read as the definition of a mock at
    [/bin] whose body is the payload itself. *)
Definition pickle_loads (bs : list byte) (h : heap) : result val * heap :=
  match bs with
  | [] => (Raise (OtherError "EOFError"), h)
  | _ =>
      let '(hd, h1) := new_object (ODict ∅) h in
      let '(md, h2) := new_object (ODict {[ "body" := VBytes bs;
                                            "status_code" := VInt 200;
                                            "headers" := VRef hd ]}) h1 in
      let '(l, h3) := new_object (ODict {[ "path" := VStr "/bin";
                                           "mock_data" := VRef md;
                                           "proxy_host" := VNone;
                                           "timeout" := VNone;
                                           "extra_info" := VNone ]}) h2 in
      (Ok (VRef l), h3)
  end.

Definition get_json (_ : request) (h : heap) : result val * heap :=
  (Raise (OtherError "UnsupportedMediaType"), h).

(** A stand-in for the schema: a dict with a text [path] and a
    [mock_data] passes and is dumped field by field; anything else is
    rejected. *)
Definition model_validate (x : val) (h : heap) : result (gmap string val) * heap :=
  match x with
  | VRef l =>
      match h !! l with
      | Some (ODict d) =>
          match d !! "path", d !! "mock_data" with
          | Some (VStr _), Some (VRef _) => (Ok d, h)
          | _, _ => (Raise (ValidationError (VStr "Field required")), h)
          end
      | _ => (Raise (ValidationError (VStr "Input should be an object")), h)
      end
  | _ => (Raise (ValidationError (VStr "Input should be an object")), h)
  end.

Definition str_other (_ : heap) (_ : val) : string := "<object>".

Definition start : app := App MockService.empty_heap [] [].

(** 0.5 as a binary64 float. *)
Definition half : spec_float := S754_finite false 4503599627370496 (-53).

(** A server with three mocks: [/up] is forwarded to an upstream, [/slow]
    answers a text after half a second, [/bin] answers bytes at once.
    Location 20 holds the dict of a request that has just come in. *)
Definition up_mock : gmap string val :=
  {[ "path" := VStr "/up"; "proxy_host" := VStr "http://upstream";
     "timeout" := VFloat half; "extra_info" := VStr "forwarded";
     "mock_data" := VRef 3 ]}.
Definition up_data : gmap string val :=
  {[ "body" := VStr "never sent"; "status_code" := VInt 500; "headers" := VRef 8 ]}.
Definition slow_mock : gmap string val :=
  {[ "path" := VStr "/slow"; "proxy_host" := VNone;
     "timeout" := VFloat half; "extra_info" := VStr "slow one";
     "mock_data" := VRef 5 ]}.
Definition slow_data : gmap string val :=
  {[ "body" := VStr "hello"; "status_code" := VInt 200; "headers" := VRef 8 ]}.
Definition bin_mock : gmap string val :=
  {[ "path" := VStr "/bin"; "proxy_host" := VNone;
     "timeout" := VNone; "extra_info" := VNone;
     "mock_data" := VRef 7 ]}.
Definition bin_data : gmap string val :=
  {[ "body" := VBytes [x00; x41]; "status_code" := VInt 201; "headers" := VRef 8 ]}.
Definition request_dict : gmap string val := {[ "method" := VStr "GET" ]}.

Definition served_heap : heap :=
  {[ 1%positive := ODict {[ "/up" := VRef 2; "/slow" := VRef 4; "/bin" := VRef 6 ]};
     2%positive := ODict up_mock;
     3%positive := ODict up_data;
     4%positive := ODict slow_mock;
     5%positive := ODict slow_data;
     6%positive := ODict bin_mock;
     7%positive := ODict bin_data;
     8%positive := ODict ∅;
     20%positive := ODict request_dict ]}.

Definition served : app := App served_heap [] [].

(** A server whose only mock sits at [/a/b]. *)
Definition deep_mock : gmap string val :=
  {[ "path" := VStr "/a/b"; "proxy_host" := VNone; "timeout" := VNone;
     "extra_info" := VNone; "mock_data" := VRef 2 ]}.

Definition only_a_b : app :=
  App (MockService.create_response deep_mock
         {[ 1%positive := ODict ∅;
            2%positive := ODict {[ "body" := VStr "deep"; "status_code" := VInt 200;
                                   "headers" := VNone ]};
            20%positive := ODict request_dict ]}).2 [] [].

(** A binary upload of two bytes to a fresh server, step by step: what
    [pickle_loads] builds from it, and the state once the mock is
    registered. *)
Definition payload : list byte := [x00; x41].
Definition upload : request := Request "/configure_mock/binary" [] payload.
Definition unpickled : heap := (pickle_loads payload MockService.empty_heap).2.
Definition uploaded_data : gmap string val :=
  {[ "body" := VBytes payload; "status_code" := VInt 200; "headers" := VRef 2 ]}.
Definition uploaded_mock : gmap string val :=
  {[ "path" := VStr "/bin"; "mock_data" := VRef 3; "proxy_host" := VNone;
     "timeout" := VNone; "extra_info" := VNone ]}.
Definition registered : heap := (MockService.create_response uploaded_mock unpickled).2.

End Sample.

(** A path lies above another one when the other continues it after a
    slash: [/a] lies above [/a/b]. *)
Definition ancestor (p q : string) : Prop :=
  ∃ rest : string, q = p +:+ String MockService.slash rest.

(** ** Two sentences of the specification, as they are written *)



(** ** The request buffer and the 404 fallback *)



(** What [jsonify({"success": ..., "data": app.params_storage}), status] is
    handed: the buffer as it is at that moment. *)
Record buffer_reply := BufferReply {
  buffer_success : val;
  buffer_data : list val;
  buffer_status : Z
}.

Section Buffer.

(** [MOCK_PARAMS_STORAGE] of [proxy_mock.constants]: the elements of the
    list a fresh buffer is copied from. *)
Variable MOCK_PARAMS_STORAGE : list val.


(** [GET /mock_params] *)
Definition get_mock_params : M buffer_reply :=
  λ a, (Ok (BufferReply (VBool true) (params_storage a) 200), a).

(** The handler of Flask's 404; [error] only goes to the log. *)
Definition catch_unknown_path (error request_data : val) : M view :=
  params_append request_data;;;
  ret (Jsonify {[ "error" := VStr "Not found" ]} 404).

End Buffer.

(** ** More sample surroundings *)

Module Probe.

(** An upstream that cannot be reached. *)
Definition down (_ : request) (_ : val) : result proxy_response :=
  Raise (OtherError "ConnectionError").

(** A server with two odd mocks: [/bare] has no [extra_info], the
    [proxy_host] of [/local] is the empty text.  Location 20 holds the dict
    of a request, location 30 the dict the placeholder of the buffer
    holds. *)
Definition bare_mock : gmap string val :=
  {[ "path" := VStr "/bare"; "proxy_host" := VNone; "timeout" := VNone;
     "mock_data" := VRef 3 ]}.
Definition local_mock : gmap string val :=
  {[ "path" := VStr "/local"; "proxy_host" := VStr ""; "timeout" := VNone;
     "extra_info" := VStr "kept local"; "mock_data" := VRef 3 ]}.
Definition plain_data : gmap string val :=
  {[ "body" := VStr "hi"; "status_code" := VInt 200; "headers" := VRef 5 ]}.
Definition slot : gmap string val := {[ "path" := VNone ]}.

Definition odd_heap : heap :=
  {[ 1%positive := ODict {[ "/bare" := VRef 2; "/local" := VRef 4; "/up" := VRef 6 ]};
     2%positive := ODict bare_mock;
     3%positive := ODict plain_data;
     4%positive := ODict local_mock;
     5%positive := ODict ∅;
     6%positive := ODict Sample.up_mock;
     20%positive := ODict Sample.request_dict;
     30%positive := ODict slot ]}.

Definition odd : app := App odd_heap [VRef 30] [].


(** A mock without body, as the stand-in unpickler would have to build it,
    and the state once it is registered. *)
Definition nobody_data : gmap string val :=
  {[ "body" := VNone; "status_code" := VInt 204; "headers" := VRef 2 ]}.
Definition nobody_mock : gmap string val :=
  {[ "path" := VStr "/quiet"; "mock_data" := VRef 3; "proxy_host" := VNone;
     "timeout" := VNone; "extra_info" := VNone ]}.
Definition unpickle_nobody (_ : list byte) (h : heap) : result val * heap :=
  let '(hd, h1) := new_object (ODict ∅) h in
  let '(md, h2) := new_object (ODict {[ "body" := VNone; "status_code" := VInt 204;
                                        "headers" := VRef hd ]}) h1 in
  let '(l, h3) := new_object (ODict {[ "path" := VStr "/quiet"; "mock_data" := VRef md;
                                       "proxy_host" := VNone; "timeout" := VNone;
                                       "extra_info" := VNone ]}) h2 in
  (Ok (VRef l), h3).
Definition unpickled : heap := (unpickle_nobody [] MockService.empty_heap).2.
Definition registered : heap := (MockService.create_response nobody_mock unpickled).2.

(** A JSON body that is no mock definition. *)
Definition json_number (_ : request) (h : heap) : result val * heap := (Ok (VInt 7), h).

End Probe.

(** * Properties *)

(** ** Truth values of numbers *)



(** ** The primitives on small inputs *)

Example bytes_repr_plain : bytes_repr [x00; x41] = "b'\x00A'".
Proof. reflexivity. Qed.

Example bytes_repr_escapes : bytes_repr [x09; x0a; x5c; x7f; xff] = "b'\t\n\\\x7f\xff'".
Proof. reflexivity. Qed.

Example bytes_repr_quote :
  bytes_repr [x27] = String "b" (String dquote (String squote (String dquote ""))).
Proof. reflexivity. Qed.

Example py_str_none : py_str Sample.str_other ∅ VNone = "None".
Proof. reflexivity. Qed.

Example truthy_empty_text : truthy ∅ (VStr "") = false.
Proof. reflexivity. Qed.

Example truthy_half : truthy ∅ (VFloat Sample.half) = true ∧ gt_zero (VFloat Sample.half) = true.
Proof. split; reflexivity. Qed.

Example truthy_minus_zero : truthy ∅ (VFloat (S754_zero true)) = false.
Proof. reflexivity. Qed.

Example args_get_first : args_get "path" [("x", "1"); ("path", "/a"); ("path", "/b")] = Some "/a".
Proof. reflexivity. Qed.

Example normalize_adds_and_strips : MockService.normalize "a/b//" = "/a/b".
Proof. reflexivity. Qed.

Example normalize_root : MockService.normalize "" = "/" ∧ MockService.normalize "/" = "/".
Proof. split; reflexivity. Qed.

Example deepcopy_is_fresh :
  (deepcopy Sample.registered (VRef 5)).1 = VRef 6 ∧
  field (deepcopy Sample.registered (VRef 5)).2 (VRef 6) "mock_data" = Some (VRef 7) ∧
  field (deepcopy Sample.registered (VRef 5)).2 (VRef 7) "headers" = Some (VRef 8) ∧
  field (deepcopy Sample.registered (VRef 5)).2 (VRef 7) "body" = Some (VBytes Sample.payload).
Proof. repeat split; vm_compute; reflexivity. Qed.

(** ** [deepcopy]: what it reaches, what it leaves alone *)

Lemma obj_refs_dict (d : gmap string val) k l :
  d !! k = Some (VRef l) → l ∈ obj_refs (ODict d).
Proof.
  intros Hk. unfold obj_refs. apply elem_of_union_list.
  exists {[ l ]}. split; [|set_solver].
  apply list_elem_of_fmap. exists (VRef l). split; [done|].
  apply list_elem_of_fmap. exists (k, VRef l). split; [done|].
  by apply elem_of_map_to_list.
Qed.

Lemma successors_intro (h : heap) (s : gset loc) l o l2 :
  l ∈ s → h !! l = Some o → l2 ∈ obj_refs o → l2 ∈ successors h s.
Proof.
  intros Hl Ho Hl2. unfold successors. apply elem_of_union_list.
  exists (obj_refs o). split; [|done].
  apply list_elem_of_fmap. exists l. rewrite Ho. split; [done|].
  by apply elem_of_elements.
Qed.

Lemma reach_mono (h : heap) n (s : gset loc) : s ⊆ reach h n s.
Proof.
  revert s. induction n as [|n IH]; intros s; simpl; [done|].
  etrans; [|apply IH]. set_solver.
Qed.

Lemma reach_dom (h : heap) n (s : gset loc) : s ⊆ dom h → reach h n s ⊆ dom h.
Proof.
  revert s. induction n as [|n IH]; intros s Hs; simpl; [done|].
  apply IH. set_solver.
Qed.

Lemma reach_closed_id (h : heap) n (s : gset loc) : closed h s → reach h n s = s.
Proof.
  intros Hc. induction n as [|n IH]; simpl; [done|].
  replace (s ∪ successors h s ∩ dom h) with s; [done|].
  unfold closed in Hc. set_solver.
Qed.

Lemma reach_closed (h : heap) n (s : gset loc) :
  s ⊆ dom h → (size (dom h) ≤ size s + n)%nat → closed h (reach h n s).
Proof.
  revert s. induction n as [|n IH]; intros s Hs Hsz; simpl.
  - assert (s ≡ dom h) as Heq by (apply set_subseteq_size_equiv; [done|lia]).
    unfold closed. set_solver.
  - destruct (decide (successors h s ∩ dom h ⊆ s)) as [Hc|Hnc].
    + replace (s ∪ successors h s ∩ dom h) with s by set_solver.
      by rewrite reach_closed_id.
    + apply IH; [set_solver|].
      assert (s ⊂ s ∪ successors h s ∩ dom h) as Hlt by set_solver.
      apply subset_size in Hlt. lia.
Qed.

Lemma reachable_root (h : heap) l o : h !! l = Some o → l ∈ reachable h (VRef l).
Proof.
  intros Ho. unfold reachable. apply reach_mono. simpl.
  apply elem_of_intersection. split; [set_solver|]. by apply elem_of_dom.
Qed.

Lemma reachable_step (h : heap) v l o l2 :
  l ∈ reachable h v → h !! l = Some o → l2 ∈ obj_refs o → is_Some (h !! l2) →
  l2 ∈ reachable h v.
Proof.
  intros Hl Ho Hl2 Hd.
  assert (closed h (reachable h v)) as Hc.
  { unfold reachable. apply reach_closed; [set_solver|lia]. }
  apply Hc. apply elem_of_intersection. split.
  - eapply successors_intro; eauto.
  - by apply elem_of_dom.
Qed.

Lemma copy_plan_fst (h : heap) v : (copy_plan h v).*1 = elements (reachable h v).
Proof. unfold copy_plan. apply fst_zip. by rewrite length_fresh_list. Qed.

Lemma copy_plan_snd (h : heap) v :
  (copy_plan h v).*2 = fresh_list (length (elements (reachable h v))) (dom h).
Proof. unfold copy_plan. apply snd_zip. by rewrite length_fresh_list. Qed.

Lemma copy_plan_fresh (h : heap) v l l' : (l, l') ∈ copy_plan h v → h !! l' = None.
Proof.
  intros Hin. apply not_elem_of_dom.
  apply (fresh_list_is_fresh (length (elements (reachable h v)))).
  rewrite <- copy_plan_snd. apply list_elem_of_fmap. by exists (l, l').
Qed.

Lemma copy_plan_lookup (h : heap) v l :
  l ∈ reachable h v →
  ∃ l', (list_to_map (copy_plan h v) : gmap loc loc) !! l = Some l' ∧ (l, l') ∈ copy_plan h v.
Proof.
  intros Hl.
  assert (l ∈ (copy_plan h v).*1) as Hin.
  { rewrite copy_plan_fst. by apply elem_of_elements. }
  apply list_elem_of_fmap in Hin as [[l0 l'] [-> Hin]]. simpl.
  exists l'. split; [|done].
  apply elem_of_list_to_map_1; [|done].
  rewrite copy_plan_fst. apply NoDup_elements.
Qed.

Lemma deepcopy_old (h : heap) v l o :
  h !! l = Some o → (deepcopy h v).2 !! l = Some o.
Proof.
  intros Ho. unfold deepcopy. simpl.
  rewrite lookup_union_r; [done|].
  apply not_elem_of_list_to_map_1. intros Hin.
  rewrite <- list_fmap_compose in Hin.
  apply list_elem_of_fmap in Hin as [[l0 l'] [Heq Hin]]. simpl in Heq. subst l'.
  apply copy_plan_fresh in Hin. congruence.
Qed.

Lemma deepcopy_new (h : heap) v l o :
  l ∈ reachable h v → h !! l = Some o →
  ∃ l', (list_to_map (copy_plan h v) : gmap loc loc) !! l = Some l' ∧ h !! l' = None ∧
        (deepcopy h v).2 !! l' = Some (rename_obj (list_to_map (copy_plan h v)) o).
Proof.
  intros Hl Ho. destruct (copy_plan_lookup h v l Hl) as (l' & Hρ & Hin).
  exists l'. split; [done|]. split; [by eapply copy_plan_fresh|].
  unfold deepcopy. simpl. apply lookup_union_Some_l.
  apply elem_of_list_to_map_1.
  - rewrite <- list_fmap_compose.
    replace ((fst ∘ copy_of h (list_to_map (copy_plan h v))) <$> copy_plan h v)
      with ((copy_plan h v).*2) by (by apply list_fmap_ext).
    rewrite copy_plan_snd. apply NoDup_fresh_list.
  - apply list_elem_of_fmap. exists (l, l'). split; [|done].
    unfold copy_of. simpl. by rewrite Ho.
Qed.

Lemma deepcopy_value (h : heap) (v : val) :
  (deepcopy h v).1 = rename_val (list_to_map (copy_plan h v)) v.
Proof. done. Qed.

(** ** Heap and string facts *)

Lemma fresh_lookup_ne (h : heap) (l : loc) (o : obj) :
  h !! l = Some o → fresh (dom h) ≠ l.
Proof.
  intros Ho Heq. apply (is_fresh (dom h)). rewrite Heq. by apply elem_of_dom.
Qed.

Lemma given_Some (o : option string) (p : string) :
  given o = Some p ↔ o = Some p ∧ p ≠ "".
Proof.
  unfold given. destruct o as [q|]; [|naive_solver].
  destruct (String.eqb_spec q ""); naive_solver.
Qed.



(** ** The catch-all route *)

Section Dispatch.

Variable find_response : heap → string → val.
Variable proxy_request_to_host : request → val → result proxy_response.


(** C1.  Whatever the catch-all handler answers, it appends the request
    dict to [app.params_storage], once.  On a hit the dict has received
    the [extra_info] of the matched mock; on a miss it is appended as the
    decorator built it, without [extra_info]. *)
Theorem catch_all_records_once
    (req : request) (lr : loc) (d : gmap string val) (a : app) :
  app_heap a !! lr = Some (ODict d) →
  d !! "extra_info" = None →
  (find_response (app_heap a) (req_path req) ≠ VNone →
   is_Some (field (app_heap a) (find_response (app_heap a) (req_path req)) "extra_info")) →
  let mock_data := find_response (app_heap a) (req_path req) in
  let a' := (catch_all find_response proxy_request_to_host req (VRef lr) a).2 in
  params_storage a' = params_storage a ++ [VRef lr] ∧
  field (app_heap a') (VRef lr) "extra_info" =
    (if is_none mock_data then None else field (app_heap a) mock_data "extra_info").
Proof.
  intros Hlr Hd Hm mock_data a'. subst a'. unfold catch_all, bind, reads. simpl.
  fold mock_data. destruct (is_none mock_data) eqn:Hnone.
  - simpl. split; [done|]. by rewrite Hlr.
  - assert (mock_data ≠ VNone) as Hne by (intros Heq; by rewrite Heq in Hnone).
    destruct (Hm Hne) as [ei Hei]. fold mock_data in Hei.
    rewrite Hei. unfold getitem, heap_getitem. unfold field in Hei.
    destruct mock_data as [| | | | | | lm]; try discriminate.
    destruct (app_heap a !! lm) as [[e|]|] eqn:Hlm; try discriminate.
    rewrite Hei. simpl. unfold setitem, heap_setitem. simpl. rewrite Hlr. simpl.
    set (h1 := <[lr := ODict (<["extra_info" := ei]> d)]> (app_heap a)).
    assert (h1 !! lr = Some (ODict (<["extra_info" := ei]> d))) as Hh1
      by apply lookup_insert_eq.
    unfold render_mock, mock_field, bool_of, emit, of_result, new_dict, updates,
      new_object, bind, reads, getitem, ret. simpl.
    assert (∀ o, <[fresh (dom h1) := o]> h1 !! lr
                 = Some (ODict (<["extra_info" := ei]> d))) as Hfr.
    { intros o. rewrite lookup_insert_ne; [done|]. by eapply fresh_lookup_ne. }
    repeat (case_match; simpl in *; simplify_eq);
      (split; [done|]);
      rewrite ?Hfr, ?Hh1 in *; simplify_eq; by rewrite ?lookup_insert_eq.
Qed.

(** C3.  A matched mock whose [proxy_host] is set (a host, not the empty
    string) is answered by the upstream: the handler calls
    [proxy_request_to_host] and wraps the content, the status code and the
    headers it returns in a [Response].  Nothing else happens: no sleep,
    and the mock's own [timeout] and [mock_data] are not even looked at
    (the theorem asks nothing of them). *)
Theorem catch_all_proxy
    (req : request) (lr lm : loc) (d e : gmap string val)
    (ei : val) (host : string) (pr : proxy_response) (a : app) :
  app_heap a !! lr = Some (ODict d) →
  find_response (app_heap a) (req_path req) = VRef lm →
  lm ≠ lr →
  app_heap a !! lm = Some (ODict e) →
  e !! "extra_info" = Some ei →
  e !! "proxy_host" = Some (VStr host) →
  host ≠ "" →
  proxy_request_to_host req (VStr host) = Ok pr →
  let a1 := recorded a lr d ei in
  let lh := fresh (dom (app_heap a1)) in
  catch_all find_response proxy_request_to_host req (VRef lr) a =
    (Ok (FlaskResponse (VBytes (content pr)) (VInt (status_code pr)) (VRef lh) None),
     App (<[lh := ODict (VStr <$> headers pr)]> (app_heap a1))
         (params_storage a1)
         (app_trace a ++ [EProxy req (VStr host)])).
Proof.
  intros Hlr Hm Hne Hlm Hei Hph Hhost Hpr a1 lh.
  unfold catch_all, bind, reads, getitem, setitem, heap_getitem, heap_setitem. simpl.
  rewrite Hm. simpl. rewrite Hlm, Hei, Hlr. simpl.
  rewrite lookup_insert_ne by done. rewrite Hlm, Hph. simpl.
  apply String.eqb_neq in Hhost. rewrite Hhost. simpl.
  by rewrite Hpr.
Qed.



End Dispatch.

Lemma string_length_app (s t : string) :
  String.length (s +:+ t) = (String.length s + String.length t)%nat.
Proof. induction s as [|c s IH]; simpl; [done|]. by rewrite IH. Qed.

Lemma ancestor_ne (p q : string) : ancestor p q → p ≠ q.
Proof.
  intros [rest ->] Heq. apply (f_equal String.length) in Heq.
  rewrite string_length_app in Heq. simpl in Heq. lia.
Qed.

Lemma catch_all_miss
    (proxy_request_to_host : request → val → result proxy_response)
    (req : request) (request_data : val) (a : app) :
  MockService.storage_dict (app_heap a) !! req_path req = None →
  catch_all MockService.find_response proxy_request_to_host req request_data a =
    (Ok (not_found req),
     App (app_heap a) (params_storage a ++ [request_data]) (app_trace a)).
Proof.
  intros Hnone. unfold catch_all, bind, reads, MockService.find_response. simpl.
  by rewrite Hnone.
Qed.

(** C2.  Dispatch is by the exact path.  With the storage of the
    specification, a request whose path has no mock registered under
    exactly that path is answered 404 with an error payload, whatever else
    is registered, and the request dict is appended to
    [app.params_storage].  So is, in particular, a request for a path that
    lies above the only registered one. *)
Theorem catch_all_exact_match_only
    (proxy_request_to_host : request → val → result proxy_response)
    (req : request) (request_data : val) (a : app) :
  let miss :=
    (Ok (not_found req),
     App (app_heap a) (params_storage a ++ [request_data]) (app_trace a)) in
  let run :=
    catch_all MockService.find_response proxy_request_to_host req request_data a in
  (MockService.storage_dict (app_heap a) !! req_path req = None → run = miss) ∧
  (∀ q, ancestor (req_path req) q →
        dom (MockService.storage_dict (app_heap a)) = {[ q ]} →
        run = miss).
Proof.
  intros miss run. split.
  - apply catch_all_miss.
  - intros q Hq Hdom. apply catch_all_miss.
    apply not_elem_of_dom. rewrite Hdom. apply not_elem_of_singleton.
    by apply ancestor_ne.
Qed.

(** ** The storage endpoints *)

Section Storage.

Variable path_finder : heap → string → val.
Variable return_storage : heap → val * heap.
Variable delete_mock : string → heap → val * heap.
Variable cleanup_storage : heap → val * heap.



End Storage.

(** ** The configuration endpoints *)

Section Configure.

Variable create_response : gmap string val → heap → val * heap.
Variable pickle_loads : list byte → heap → result val * heap.
Variable get_json : request → heap → result val * heap.
Variable model_validate : val → heap → result (gmap string val) * heap.
Variable str_other : heap → val → string.

Lemma binary_after_validation (req : request) (a : app) input h1 kw h2 :
  pickle_loads (req_data req) (app_heap a) = (Ok input, h1) →
  model_validate input h1 = (Ok kw, h2) →
  ∀ payload status a',
    configure_binary_mock create_response pickle_loads model_validate str_other req a
      = (Ok (Jsonify payload status), a') →
    status = 201.
Proof.
  intros Hp Hv payload status a'.
  unfold configure_binary_mock, try_validation, except_ValidationError, bind, tries,
    updates, reads, getitem, setitem, kwarg, of_result, ret.
  simpl. rewrite Hp. simpl. rewrite Hv. simpl.
  repeat (case_match; simpl in *; simplify_eq); intros; simplify_eq; done.
Qed.

(** C10.  In [POST /configure_mock/binary] an error of [pickle.loads]
    leaves the handler as it was raised.  A [ValidationError] of the
    schema, raised once the payload has been unpickled, becomes the 400
    answer with the error payload, and the 400 answer arises in no other
    way. *)
Theorem configure_binary_mock_errors (req : request) (a : app) :
  let run :=
    configure_binary_mock create_response pickle_loads model_validate str_other req a in
  (∀ e h1, pickle_loads (req_data req) (app_heap a) = (Raise e, h1) →
           run = (Raise e, set_heap h1 a)) ∧
  (∀ input h1 errors h2,
     pickle_loads (req_data req) (app_heap a) = (Ok input, h1) →
     model_validate input h1 = (Raise (ValidationError errors), h2) →
     run = (Ok (invalid errors), set_heap h2 a)) ∧
  (∀ payload a', run = (Ok (Jsonify payload 400), a') →
     ∃ input h1 errors h2,
       pickle_loads (req_data req) (app_heap a) = (Ok input, h1) ∧
       model_validate input h1 = (Raise (ValidationError errors), h2) ∧
       Jsonify payload 400 = invalid errors).
Proof.
  intros run. subst run. split; [|split].
  - intros e h1 Hp. unfold configure_binary_mock, bind, tries. by rewrite Hp.
  - intros input h1 errors h2 Hp Hv.
    unfold configure_binary_mock, try_validation, except_ValidationError,
      bind, tries, ret. simpl. rewrite Hp. simpl. by rewrite Hv.
  - intros payload a' Hrun.
    destruct (pickle_loads (req_data req) (app_heap a)) as [[input|e] h1] eqn:Hp.
    + destruct (model_validate input h1) as [[kw|e] h2] eqn:Hv.
      * by apply (binary_after_validation _ _ _ _ _ _ Hp Hv) in Hrun.
      * revert Hrun.
        unfold configure_binary_mock, try_validation, except_ValidationError,
          bind, tries, ret. simpl. rewrite Hp. simpl. rewrite Hv. simpl.
        destruct e; intros; simplify_eq. eauto 10.
    + revert Hrun. unfold configure_binary_mock, bind, tries. rewrite Hp.
      intros; simplify_eq.
Qed.

Opaque deepcopy.

(** What the binary endpoint does once the payload is unpickled and
    valid: it registers the mock, copies what [create_response] returned,
    and puts the text of the body into the copy. *)
Lemma binary_copy (req : request) (a : app)
    (input : val) (h1 h2 h3 : heap) (kw d di : gmap string val)
    (l li : loc) (body p : val) :
  pickle_loads (req_data req) (app_heap a) = (Ok input, h1) →
  model_validate input h1 = (Ok kw, h2) →
  kw !! "path" = Some p →
  create_response kw h2 = (VRef l, h3) →
  h3 !! l = Some (ODict d) →
  d !! "mock_data" = Some (VRef li) →
  h3 !! li = Some (ODict di) →
  di !! "body" = Some body →
  ∃ (l' li' : loc) (h' : heap),
    configure_binary_mock create_response pickle_loads model_validate str_other req a
      = (Ok (created p (VRef l')), set_heap h' a) ∧
    h3 !! l' = None ∧
    h3 !! li' = None ∧
    field h' (VRef l') "mock_data" = Some (VRef li') ∧
    field h' (VRef li') "body"
      = Some (VStr (py_str str_other (deepcopy h3 (VRef l)).2
                      (rename_val (list_to_map (copy_plan h3 (VRef l))) body))) ∧
    (∀ k o, h3 !! k = Some o → h' !! k = Some o).
Proof.
  intros Hp Hv Hpath Hcr Hl Hmd Hli Hbody.
  set (ρ := list_to_map (copy_plan h3 (VRef l)) : gmap loc loc).
  set (h4 := (deepcopy h3 (VRef l)).2).
  assert (l ∈ reachable h3 (VRef l)) as Hrl by by eapply reachable_root.
  assert (li ∈ reachable h3 (VRef l)) as Hrli.
  { eapply reachable_step; eauto. by eapply obj_refs_dict. }
  destruct (deepcopy_new h3 (VRef l) l _ Hrl Hl) as (l' & Hρl & Hfl & Hl').
  destruct (deepcopy_new h3 (VRef l) li _ Hrli Hli) as (li' & Hρli & Hfli & Hli').
  fold ρ in Hρl, Hρli, Hl', Hli'. fold h4 in Hl', Hli'. simpl in Hl', Hli'.
  assert (deepcopy h3 (VRef l) = (VRef l', h4)) as Hdc.
  { unfold h4. rewrite (surjective_pairing (deepcopy h3 (VRef l))). f_equal.
    rewrite deepcopy_value. fold ρ. simpl. by rewrite Hρl. }
  set (text := py_str str_other h4 (rename_val ρ body)).
  set (h' := <[li' := ODict (<["body" := VStr text]> (rename_val ρ <$> di))]> h4).
  exists l', li', h'. split; [|repeat split].
  - unfold configure_binary_mock, try_validation, except_ValidationError, bind, tries,
      updates, reads, getitem, setitem, kwarg, of_result, ret.
    simpl. rewrite Hp. simpl. rewrite Hv. simpl. rewrite Hcr. simpl.
    rewrite Hdc. simpl. unfold heap_getitem, heap_setitem. rewrite Hl'.
    rewrite lookup_fmap, Hmd. simpl. rewrite Hρli. simpl.
    rewrite Hli'. rewrite lookup_fmap, Hbody. simpl.
    by rewrite Hpath.
  - done.
  - done.
  - unfold field, h'. destruct (decide (li' = l')) as [->|Hne].
    + rewrite lookup_insert_eq. rewrite lookup_insert_ne by done.
      rewrite Hl' in Hli'. simplify_eq. rewrite <- Hli'.
      by rewrite lookup_fmap, Hmd; simpl; rewrite Hρli.
    + rewrite lookup_insert_ne by done. rewrite Hl'.
      by rewrite lookup_fmap, Hmd; simpl; rewrite Hρli.
  - unfold field, h'. rewrite lookup_insert_eq. by rewrite lookup_insert_eq.
  - intros k o Hk. unfold h'. rewrite lookup_insert_ne by congruence.
    by apply deepcopy_old.
Qed.

Transparent deepcopy.

(** C8.  The binary endpoint writes the text of the body into a deep copy
    of what [create_response] returned.  The answer is 201 and refers to
    that copy, which did not exist before and whose body is the text.
    Every object that existed when [create_response] returned, the
    registered mock among them, is left as it was: its body is still the
    original one.  The JSON endpoint, given the same validated
    definition, stops in exactly that earlier state. *)
Theorem configure_binary_mock_copies (req : request) (a : app)
    (input : val) (h1 h2 h3 : heap) (kw d di : gmap string val)
    (l li : loc) (body p : val) :
  pickle_loads (req_data req) (app_heap a) = (Ok input, h1) →
  model_validate input h1 = (Ok kw, h2) →
  kw !! "path" = Some p →
  create_response kw h2 = (VRef l, h3) →
  h3 !! l = Some (ODict d) →
  d !! "mock_data" = Some (VRef li) →
  h3 !! li = Some (ODict di) →
  di !! "body" = Some body →
  ∃ (l' li' : loc) (h' : heap),
    configure_binary_mock create_response pickle_loads model_validate str_other req a
      = (Ok (created p (VRef l')), set_heap h' a) ∧
    h3 !! l' = None ∧
    h3 !! li' = None ∧
    field h' (VRef l') "mock_data" = Some (VRef li') ∧
    field h' (VRef li') "body"
      = Some (VStr (py_str str_other (deepcopy h3 (VRef l)).2
                      (rename_val (list_to_map (copy_plan h3 (VRef l))) body))) ∧
    (∀ b, body = VBytes b → field h' (VRef li') "body" = Some (VStr (bytes_repr b))) ∧
    (∀ k o, h3 !! k = Some o → h' !! k = Some o) ∧
    field h' (VRef l) "mock_data" = Some (VRef li) ∧
    field h' (VRef li) "body" = Some body ∧
    (∀ req' input' h1',
       get_json req' (app_heap a) = (Ok input', h1') →
       model_validate input' h1' = (Ok kw, h2) →
       configure_mock create_response get_json model_validate req' a
         = (Ok (created p (VRef l)), set_heap h3 a)).
Proof.
  intros Hp Hv Hpath Hcr Hl Hmd Hli Hbody.
  destruct (binary_copy req a input h1 h2 h3 kw d di l li body p)
    as (l' & li' & h' & Hrun & Hfl & Hfli & Hmd' & Hbody' & Hframe); try done.
  exists l', li', h'. repeat split; try done.
  - intros b ->. by rewrite Hbody'.
  - unfold field. by rewrite (Hframe _ _ Hl).
  - unfold field. by rewrite (Hframe _ _ Hli).
  - intros req' input' h1' Hj Hv'.
    unfold configure_mock, try_validation, except_ValidationError, bind, tries,
      updates, kwarg, of_result, ret.
    simpl. rewrite Hj. simpl. rewrite Hv'. simpl. rewrite Hcr. simpl.
    by rewrite Hpath.
Qed.

End Configure.

(** ** A binary mock, registered and read back *)



Section RoundTrip.

Variable pickle_loads : list byte → heap → result val * heap.
Variable model_validate : val → heap → result (gmap string val) * heap.
Variable str_other : heap → val → string.


End RoundTrip.

(** ** Where the two sentences fail *)



(** ** The theorems at work on the sample server *)

Lemma catch_all_records_once_witness :
  let a' := (catch_all MockService.find_response Sample.proxy_request_to_host
               (Request "/slow" [] []) (VRef 20) Sample.served).2 in
  params_storage a' = [VRef 20] ∧
  field (app_heap a') (VRef 20) "extra_info" = Some (VStr "slow one").
Proof.
  pose proof (catch_all_records_once MockService.find_response
                Sample.proxy_request_to_host (Request "/slow" [] []) 20%positive
                Sample.request_dict Sample.served) as Hthm.
  lapply Hthm; [clear Hthm; intros Hthm|vm_compute; reflexivity].
  lapply Hthm; [clear Hthm; intros Hthm|vm_compute; reflexivity].
  lapply Hthm; [clear Hthm; intros Hthm|intros _; vm_compute; eauto].
  vm_compute in Hthm. vm_compute. exact Hthm.
Defined.

Lemma catch_all_exact_match_only_witness :
  dom (MockService.storage_dict (app_heap Sample.only_a_b)) = {[ "/a/b" ]} ∧
  catch_all MockService.find_response Sample.proxy_request_to_host
    (Request "/a" [] []) (VRef 20) Sample.only_a_b
  = (Ok (not_found (Request "/a" [] [])),
     App (app_heap Sample.only_a_b) [VRef 20] []).
Proof.
  assert (dom (MockService.storage_dict (app_heap Sample.only_a_b)) = {[ "/a/b" ]})
    as Hdom by (vm_compute; reflexivity).
  split; [exact Hdom|].
  destruct (catch_all_exact_match_only Sample.proxy_request_to_host
              (Request "/a" [] []) (VRef 20) Sample.only_a_b) as (Hexact & Habove).
  apply (Habove "/a/b"); [by exists "b" | exact Hdom].
Defined.

Lemma catch_all_proxy_witness :
  catch_all MockService.find_response Sample.proxy_request_to_host
    (Request "/up" [] []) (VRef 20) Sample.served
  = (Ok (FlaskResponse (VBytes [x6f; x6b]) (VInt 203) (VRef 21) None),
     App (<[21%positive := ODict {[ "X-Upstream" := VStr "yes" ]}]>
            (<[20%positive := ODict (<["extra_info" := VStr "forwarded"]> Sample.request_dict)]>
               Sample.served_heap))
         [VRef 20]
         [EProxy (Request "/up" [] []) (VStr "http://upstream")]).
Proof.
  etrans.
  - apply (catch_all_proxy MockService.find_response Sample.proxy_request_to_host
             (Request "/up" [] []) 20%positive 2%positive Sample.request_dict
             Sample.up_mock (VStr "forwarded") "http://upstream" Sample.upstream
             Sample.served); try (vm_compute; reflexivity); done.
  - vm_compute. reflexivity.
Defined.





Lemma configure_binary_mock_errors_witness :
  configure_binary_mock MockService.create_response Sample.pickle_loads
    Sample.model_validate Sample.str_other
    (Request "/configure_mock/binary" [] []) Sample.start
  = (Raise (OtherError "EOFError"), Sample.start).
Proof.
  destruct (configure_binary_mock_errors MockService.create_response Sample.pickle_loads
              Sample.model_validate Sample.str_other
              (Request "/configure_mock/binary" [] []) Sample.start) as (Hraise & _).
  apply Hraise. vm_compute. reflexivity.
Defined.

Lemma configure_binary_mock_copies_witness :
  ∃ (l' li' : loc) (h' : heap),
    configure_binary_mock MockService.create_response Sample.pickle_loads
      Sample.model_validate Sample.str_other Sample.upload Sample.start
      = (Ok (created (VStr "/bin") (VRef l')), set_heap h' Sample.start) ∧
    Sample.registered !! l' = None ∧
    field h' (VRef l') "mock_data" = Some (VRef li') ∧
    field h' (VRef li') "body" = Some (VStr (bytes_repr Sample.payload)) ∧
    field h' (VRef 5) "mock_data" = Some (VRef 3) ∧
    field h' (VRef 3) "body" = Some (VBytes Sample.payload).
Proof.
  pose proof (configure_binary_mock_copies MockService.create_response
                Sample.pickle_loads Sample.get_json Sample.model_validate
                Sample.str_other Sample.upload Sample.start
                (VRef 4) Sample.unpickled Sample.unpickled Sample.registered
                Sample.uploaded_mock (<["path" := VStr "/bin"]> Sample.uploaded_mock)
                Sample.uploaded_data 5%positive 3%positive (VBytes Sample.payload)
                (VStr "/bin")) as Hthm.
  do 8 (lapply Hthm; [clear Hthm; intros Hthm|vm_compute; reflexivity]).
  destruct Hthm
    as (l' & li' & h' & Hrun & Hnew & _ & Hmd & _ & Hbody & _ & Hmd0 & Hbody0 & _).
  exists l', li', h'.
  exact (conj Hrun (conj Hnew (conj Hmd (conj (Hbody _ eq_refl) (conj Hmd0 Hbody0))))).
Defined.


(** * Beyond the ten sentences *)

(** ** The catch-all route: what it leaves alone, and how it fails *)

Section DispatchMore.

Variable find_response : heap → string → val.
Variable proxy_request_to_host : request → val → result proxy_response.


(** X1.  The only object the catch-all handler ever writes to is the dict
    of the request: every other object of the heap, the mocks of the
    storage among them, is after the call what it was before, whether the
    handler answers or raises. *)
Theorem catch_all_frame (req : request) (request_data : val) (a : app) (l : loc) (o : obj) :
  app_heap a !! l = Some o →
  request_data ≠ VRef l →
  app_heap (catch_all find_response proxy_request_to_host req request_data a).2 !! l
    = Some o.
Proof.
  intros Hl Hne.
  unfold catch_all, render_mock, mock_field, bool_of, emit, of_result, new_dict, updates,
    new_object, params_append, setitem, heap_setitem, bind, reads, getitem, ret.
  simpl.
  repeat (case_match; simpl in *; simplify_eq); simpl; try done.
  all: try (rewrite lookup_insert_ne by congruence; done).
  rewrite lookup_insert_ne; [by rewrite lookup_insert_ne by congruence|].
  eapply fresh_lookup_ne. by rewrite lookup_insert_ne by congruence.
Qed.

(** X2.  One request makes the catch-all handler call the outside world at
    most once: it forwards the request itself to one host, or sleeps once,
    or does neither; it never does both and never repeats a call. *)
Theorem catch_all_one_call (req : request) (request_data : val) (a : app) :
  let tr := app_trace (catch_all find_response proxy_request_to_host req request_data a).2 in
  tr = app_trace a ∨
  (∃ host, tr = app_trace a ++ [EProxy req host]) ∨
  (∃ t, tr = app_trace a ++ [ESleep t]).
Proof.
  unfold catch_all, render_mock, mock_field, bool_of, emit, of_result, new_dict, updates,
    new_object, params_append, setitem, heap_setitem, bind, reads, getitem, ret.
  simpl.
  repeat (case_match; simpl in *; simplify_eq); eauto.
Qed.

(** X3.  An error of the upstream call is not caught: it leaves the
    handler as [proxy_request_to_host] raised it.  By then the request is
    recorded, with the [extra_info] of the mock, and the record stays. *)
Theorem catch_all_upstream_error
    (req : request) (lr lm : loc) (d e : gmap string val)
    (ei : val) (host : string) (err : exn) (a : app) :
  app_heap a !! lr = Some (ODict d) →
  find_response (app_heap a) (req_path req) = VRef lm →
  lm ≠ lr →
  app_heap a !! lm = Some (ODict e) →
  e !! "extra_info" = Some ei →
  e !! "proxy_host" = Some (VStr host) →
  host ≠ "" →
  proxy_request_to_host req (VStr host) = Raise err →
  catch_all find_response proxy_request_to_host req (VRef lr) a =
    (Raise err,
     App (app_heap (recorded a lr d ei)) (params_storage a ++ [VRef lr])
         (app_trace a ++ [EProxy req (VStr host)])).
Proof.
  intros Hlr Hm Hne Hlm Hei Hph Hhost Hpr.
  unfold catch_all, bind, reads, getitem, setitem, heap_getitem, heap_setitem. simpl.
  rewrite Hm. simpl. rewrite Hlm, Hei, Hlr. simpl.
  rewrite lookup_insert_ne by done. rewrite Hlm, Hph. simpl.
  apply String.eqb_neq in Hhost. rewrite Hhost. simpl.
  by rewrite Hpr.
Qed.


(** X5.  [mock_data["extra_info"]] is read before anything is written: a
    matched mock that has no such key makes the handler raise [KeyError]
    with the request neither changed nor recorded. *)
Theorem catch_all_without_extra_info
    (req : request) (request_data : val) (lm : loc) (e : gmap string val) (a : app) :
  find_response (app_heap a) (req_path req) = VRef lm →
  app_heap a !! lm = Some (ODict e) →
  e !! "extra_info" = None →
  catch_all find_response proxy_request_to_host req request_data a
    = (Raise (KeyError "extra_info"), a).
Proof.
  intros Hm Hlm Hei.
  unfold catch_all, bind, reads, getitem, heap_getitem. simpl.
  rewrite Hm. simpl. by rewrite Hlm, Hei.
Qed.

End DispatchMore.

(** ** The 404 fallback and the request buffer *)

(** X6.  For a path without mock the catch-all route and the handler of
    Flask's 404 leave the same state behind: the request dict appended to
    the buffer as it came, nothing else touched.  Both answer 404; only
    the error text differs. *)
Theorem catch_unknown_path_like_miss
    (find_response : heap → string → val)
    (proxy_request_to_host : request → val → result proxy_response)
    (req : request) (error request_data : val) (a : app) :
  find_response (app_heap a) (req_path req) = VNone →
  let miss := catch_all find_response proxy_request_to_host req request_data a in
  let fallback := catch_unknown_path error request_data a in
  miss.2 = fallback.2 ∧
  fallback.2 = App (app_heap a) (params_storage a ++ [request_data]) (app_trace a) ∧
  (∃ p, miss.1 = Ok (Jsonify p 404)) ∧
  fallback.1 = Ok (Jsonify {[ "error" := VStr "Not found" ]} 404).
Proof.
  intros Hnone. simpl.
  unfold catch_all, catch_unknown_path, bind, reads, params_append, ret. simpl.
  rewrite Hnone. simpl. eauto.
Qed.

(** X7.  [GET /mock_params] shows the buffer in arrival order: after any
    number of requests that ran into the 404 handler, it answers 200 with
    what the buffer held before, followed by the dicts of these requests,
    first come first; reading changes nothing. *)
Theorem get_mock_params_arrival_order (error : val) (rs : list val) (a : app) :
  foldr (λ r k, catch_unknown_path error r;;; k) get_mock_params rs a =
    (Ok (BufferReply (VBool true) (params_storage a ++ rs) 200),
     App (app_heap a) (params_storage a ++ rs) (app_trace a)).
Proof.
  revert a. induction rs as [|r rs IH]; intros a; simpl.
  - unfold get_mock_params. rewrite app_nil_r. by destruct a.
  - unfold bind at 1. unfold catch_unknown_path at 1.
    unfold bind, params_append, ret. simpl.
    rewrite IH. simpl. by rewrite <- app_assoc.
Qed.









Section BufferFacts.

Variable MOCK_PARAMS_STORAGE : list val.


End BufferFacts.

(** ** The configuration and storage endpoints, further *)

Section ConfigureMore.

Variable create_response : gmap string val → heap → val * heap.
Variable pickle_loads : list byte → heap → result val * heap.
Variable get_json : request → heap → result val * heap.
Variable model_validate : val → heap → result (gmap string val) * heap.
Variable str_other : heap → val → string.

(** X9.  [POST /configure_mock] reads [request.json] inside the [try]
    block.  A [ValidationError], whether reading the JSON or the schema
    raises it, becomes the 400 answer; any other exception of either
    leaves the handler as raised.  In all four cases [create_response] has
    not run: the state is the one the failing call left. *)
Theorem configure_mock_errors (req : request) (a : app) :
  let run := configure_mock create_response get_json model_validate req a in
  (∀ errors h1, get_json req (app_heap a) = (Raise (ValidationError errors), h1) →
     run = (Ok (invalid errors), set_heap h1 a)) ∧
  (∀ e h1, get_json req (app_heap a) = (Raise e, h1) →
     (∀ errors, e ≠ ValidationError errors) →
     run = (Raise e, set_heap h1 a)) ∧
  (∀ input h1 errors h2,
     get_json req (app_heap a) = (Ok input, h1) →
     model_validate input h1 = (Raise (ValidationError errors), h2) →
     run = (Ok (invalid errors), set_heap h2 a)) ∧
  (∀ input h1 e h2,
     get_json req (app_heap a) = (Ok input, h1) →
     model_validate input h1 = (Raise e, h2) →
     (∀ errors, e ≠ ValidationError errors) →
     run = (Raise e, set_heap h2 a)).
Proof.
  intros run. subst run.
  unfold configure_mock, try_validation, except_ValidationError, bind, tries, ret.
  split; [|split; [|split]].
  - intros errors h1 Hj. simpl. by rewrite Hj.
  - intros e h1 Hj He. simpl. rewrite Hj. destruct e; try done. by destruct (He errors).
  - intros input h1 errors h2 Hj Hv. simpl. rewrite Hj. simpl. by rewrite Hv.
  - intros input h1 e h2 Hj Hv He. simpl. rewrite Hj. simpl. rewrite Hv.
    destruct e; try done. by destruct (He errors).
Qed.

(** X10.  The text the binary endpoint writes into its answer, for the
    bodies that are no bytes: a mock without body is answered with the
    body ["None"], a text body with the same text, an integer with its
    decimal digits, a boolean with [True] or [False].  The stored mock
    keeps the body it was registered with. *)
Theorem configure_binary_mock_text_of_body (req : request) (a : app)
    (input : val) (h1 h2 h3 : heap) (kw d di : gmap string val)
    (l li : loc) (body p : val) :
  pickle_loads (req_data req) (app_heap a) = (Ok input, h1) →
  model_validate input h1 = (Ok kw, h2) →
  kw !! "path" = Some p →
  create_response kw h2 = (VRef l, h3) →
  h3 !! l = Some (ODict d) →
  d !! "mock_data" = Some (VRef li) →
  h3 !! li = Some (ODict di) →
  di !! "body" = Some body →
  ∃ (l' li' : loc) (h' : heap),
    configure_binary_mock create_response pickle_loads model_validate str_other req a
      = (Ok (created p (VRef l')), set_heap h' a) ∧
    field h' (VRef l') "mock_data" = Some (VRef li') ∧
    field h' (VRef li) "body" = Some body ∧
    (body = VNone → field h' (VRef li') "body" = Some (VStr "None")) ∧
    (∀ s, body = VStr s → field h' (VRef li') "body" = Some (VStr s)) ∧
    (∀ z, body = VInt z → field h' (VRef li') "body" = Some (VStr (pretty z))) ∧
    (∀ b, body = VBool b →
       field h' (VRef li') "body" = Some (VStr (if b then "True" else "False"))).
Proof.
  intros Hp Hv Hpath Hcr Hl Hmd Hli Hbody.
  destruct (binary_copy create_response pickle_loads model_validate str_other
              req a input h1 h2 h3 kw d di l li body p
              Hp Hv Hpath Hcr Hl Hmd Hli Hbody)
    as (l' & li' & h' & Hrun & Hfl & Hfli & Hmd' & Hbody' & Hframe).
  exists l', li', h'. split; [exact Hrun|]. split; [exact Hmd'|]. split.
  { unfold field. by rewrite (Hframe _ _ Hli). }
  split; [|split; [|split]].
  - intros ->. exact Hbody'.
  - intros s ->. exact Hbody'.
  - intros z ->. exact Hbody'.
  - intros b ->. rewrite Hbody'. by destruct b.
Qed.

End ConfigureMore.

Section Quiet.

Variable create_response : gmap string val → heap → val * heap.
Variable path_finder : heap → string → val.
Variable return_storage : heap → val * heap.
Variable delete_mock : string → heap → val * heap.
Variable cleanup_storage : heap → val * heap.
Variable pickle_loads : list byte → heap → result val * heap.
Variable get_json : request → heap → result val * heap.
Variable model_validate : val → heap → result (gmap string val) * heap.
Variable str_other : heap → val → string.

Opaque deepcopy.

(** X11.  Configuring and inspecting is not traffic: the two
    configuration endpoints and the two storage endpoints never append to
    the request buffer, never forward anything and never sleep, whether
    they answer or raise. *)
Theorem configuring_is_not_recorded (req : request) (a : app) :
  let quiet (a' : app) :=
    params_storage a' = params_storage a ∧ app_trace a' = app_trace a in
  quiet (configure_mock create_response get_json model_validate req a).2 ∧
  quiet (configure_binary_mock create_response pickle_loads model_validate
           str_other req a).2 ∧
  quiet (clear_storage return_storage delete_mock cleanup_storage req a).2 ∧
  quiet (get_storage path_finder return_storage req a).2.
Proof.
  intros quiet. subst quiet.
  unfold configure_mock, configure_binary_mock, clear_storage, get_storage,
    try_validation, except_ValidationError, bind, tries, updates, reads, bool_of,
    dict_get, getitem, setitem, kwarg, of_result, ret.
  simpl. repeat split;
    repeat (case_match; simpl in *; simplify_eq); done.
Qed.

Transparent deepcopy.

(** X12.  [GET /storage] looks the resolved key up with [dict.get]: a key
    that [path_finder] gives but the snapshot does not hold is no error,
    the answer is 200 with [data] null. *)
Theorem get_storage_key_not_held (req : request) (a : app)
    (p k : string) (ls : loc) (h : heap) (m : gmap string val) :
  args_get "path" (req_args req) = Some p →
  p ≠ "" →
  return_storage (app_heap a) = (VRef ls, h) →
  h !! ls = Some (ODict m) →
  path_finder h p = VStr k →
  k ≠ "" →
  m !! k = None →
  get_storage path_finder return_storage req a = (Ok (storage_reply VNone), set_heap h a).
Proof.
  intros Hp Hne Hrs Hls Hpf Hk Hm.
  unfold get_storage, bind, updates, reads, bool_of, dict_get, heap_dict_get, ret. simpl.
  rewrite Hrs. simpl.
  assert (given (args_get "path" (req_args req)) = Some p) as -> by by apply given_Some.
  simpl. rewrite Hpf. simpl. apply String.eqb_neq in Hk. rewrite Hk. simpl.
  by rewrite Hls, Hm.
Qed.

End Quiet.

(** ** The further theorems at work *)

Lemma catch_all_frame_witness :
  app_heap (catch_all MockService.find_response Sample.proxy_request_to_host
              (Request "/up" [] []) (VRef 20) Sample.served).2 !! 2%positive
  = Some (ODict Sample.up_mock).
Proof.
  apply (catch_all_frame MockService.find_response Sample.proxy_request_to_host
           (Request "/up" [] []) (VRef 20) Sample.served 2%positive (ODict Sample.up_mock));
    [vm_compute; reflexivity | discriminate].
Defined.

Lemma catch_all_upstream_error_witness :
  catch_all MockService.find_response Probe.down (Request "/up" [] []) (VRef 20) Probe.odd
  = (Raise (OtherError "ConnectionError"),
     App (<[20%positive := ODict (<["extra_info" := VStr "forwarded"]> Sample.request_dict)]>
            Probe.odd_heap)
         [VRef 30; VRef 20]
         [EProxy (Request "/up" [] []) (VStr "http://upstream")]).
Proof.
  apply (catch_all_upstream_error MockService.find_response Probe.down
           (Request "/up" [] []) 20%positive 6%positive Sample.request_dict
           Sample.up_mock (VStr "forwarded") "http://upstream"
           (OtherError "ConnectionError") Probe.odd);
    try (vm_compute; reflexivity); done.
Defined.


Lemma catch_all_without_extra_info_witness :
  catch_all MockService.find_response Probe.down (Request "/bare" [] []) (VRef 20) Probe.odd
  = (Raise (KeyError "extra_info"), Probe.odd).
Proof.
  apply (catch_all_without_extra_info MockService.find_response Probe.down
           (Request "/bare" [] []) (VRef 20) 2%positive Probe.bare_mock Probe.odd);
    vm_compute; reflexivity.
Defined.

Lemma catch_unknown_path_like_miss_witness :
  (catch_all MockService.find_response Sample.proxy_request_to_host
     (Request "/nowhere" [] []) (VRef 20) Sample.served).2
  = (catch_unknown_path (VStr "404 Not Found") (VRef 20) Sample.served).2.
Proof.
  pose proof (catch_unknown_path_like_miss MockService.find_response
                Sample.proxy_request_to_host (Request "/nowhere" [] [])
                (VStr "404 Not Found") (VRef 20) Sample.served) as Hthm.
  lapply Hthm; [clear Hthm; intros Hthm|vm_compute; reflexivity].
  destruct Hthm as (Hsame & _).
  exact Hsame.
Defined.


Lemma configure_mock_errors_witness :
  configure_mock MockService.create_response Probe.json_number Sample.model_validate
    (Request "/configure_mock" [] []) Sample.start
  = (Ok (invalid (VStr "Input should be an object")), Sample.start).
Proof.
  destruct (configure_mock_errors MockService.create_response Probe.json_number
              Sample.model_validate (Request "/configure_mock" [] []) Sample.start)
    as (_ & _ & Hinvalid & _).
  apply (Hinvalid (VInt 7) MockService.empty_heap (VStr "Input should be an object")
           MockService.empty_heap); reflexivity.
Defined.

Lemma configure_binary_mock_text_of_body_witness :
  ∃ (l' li' : loc) (h' : heap),
    configure_binary_mock MockService.create_response Probe.unpickle_nobody
      Sample.model_validate Sample.str_other
      (Request "/configure_mock/binary" [] []) Sample.start
      = (Ok (created (VStr "/quiet") (VRef l')), set_heap h' Sample.start) ∧
    field h' (VRef l') "mock_data" = Some (VRef li') ∧
    field h' (VRef li') "body" = Some (VStr "None") ∧
    field h' (VRef 3) "body" = Some VNone.
Proof.
  pose proof (configure_binary_mock_text_of_body MockService.create_response
                Probe.unpickle_nobody Sample.model_validate Sample.str_other
                (Request "/configure_mock/binary" [] []) Sample.start
                (VRef 4) Probe.unpickled Probe.unpickled Probe.registered
                Probe.nobody_mock (<["path" := VStr "/quiet"]> Probe.nobody_mock)
                Probe.nobody_data 5%positive 3%positive VNone (VStr "/quiet")) as Hthm.
  do 8 (lapply Hthm; [clear Hthm; intros Hthm|vm_compute; reflexivity]).
  destruct Hthm as (l' & li' & h' & Hrun & Hmd & Hold & Hnone & _).
  exists l', li', h'.
  exact (conj Hrun (conj Hmd (conj (Hnone eq_refl) Hold))).
Defined.

Lemma get_storage_key_not_held_witness :
  get_storage (λ _ p, VStr p) MockService.return_storage
    (Request "/storage" [("path", "/x")] []) Sample.served
  = (Ok (storage_reply VNone), Sample.served).
Proof.
  apply (get_storage_key_not_held (λ _ p, VStr p) MockService.return_storage
           (Request "/storage" [("path", "/x")] []) Sample.served "/x" "/x" 1%positive
           Sample.served_heap {[ "/up" := VRef 2; "/slow" := VRef 4; "/bin" := VRef 6 ]});
    try (vm_compute; reflexivity); done.
Defined.
